(** * CoinStats gateway: quota middleware and upstream forwarding

    A shallow embedding of [main.py]: the process globals [request_count],
    [last_reset] and [REQUEST_LIMIT], the HTTP middleware [track_requests],
    the status handler [home] and the forwarding helper
    [fetch_from_coinstats], followed by the properties of the quota counter
    and of the translation of upstream replies.

    Modelling conventions.
    - A Python [str] is a [string]; the bodies and method names handled here
      are one-byte characters, the emoji markers of the fixed messages are
      kept as the bytes of their UTF-8 encoding.
    - [time.time()] is a reading of a clock oracle, in seconds; every call
      consumes one reading.
    - [requests.get/post/patch] is a network oracle; every call is appended
      to the log [upstream_calls].
    - [print] appends a structured line to [console].
    - Exceptions are values of [exn]; a computation either returns or raises.
    - The middleware body up to [await call_next(request)] contains no
      suspension point, so it runs as one uninterrupted step. *)

From Stdlib Require Import ZArith String Ascii List Bool Lia.
Import ListNotations.

Set Warnings "-register-all".

Local Open Scope string_scope.
Local Open Scope Z_scope.
Local Open Scope list_scope.

(** ** Python values *)

(** JSON-like values: what handlers return and what parameter dicts hold.
    A dict keeps its insertion order, as Python's does. *)
Inductive pyval : Type :=
| JNull
| JBool (b : bool)
| JInt (n : Z)
| JStr (s : string)
| JList (items : list pyval)
| JDict (entries : list (string * pyval)).

Definition dict := list (string * pyval).

Fixpoint dict_get (k : string) (d : dict) : option pyval :=
  match d with
  | [] => None
  | (k', v) :: rest => if (k =? k')%string then Some v else dict_get k rest
  end.

(** [d[k]] on a value that is expected to be a dict. *)
Definition field (k : string) (v : pyval) : option pyval :=
  match v with
  | JDict d => dict_get k d
  | _ => None
  end.

(** Truthiness of an [Optional[Dict]]: [None] and the empty dict are false. *)
Definition truthy (params : option dict) : bool :=
  match params with
  | None | Some [] => false
  | Some (_ :: _) => true
  end.

(** [str.upper] on one-byte characters. *)
Definition upper_ascii (c : ascii) : ascii :=
  let n := nat_of_ascii c in
  if (Nat.leb 97 n && Nat.leb n 122)%bool then ascii_of_nat (n - 32) else c.

Fixpoint upper (s : string) : string :=
  match s with
  | EmptyString => EmptyString
  | String c rest => String (upper_ascii c) (upper rest)
  end.

(** [s.startswith((p1, ..., pn))]: some element of the tuple is a prefix. *)
Definition startswith (s : string) (prefixes : list string) : bool :=
  existsb (fun p => prefix p s) prefixes.

(** ** Exceptions and outcomes *)

Inductive exn : Type :=
| RequestException (description : string)
| ValueError (message : string)
| HTTPException (status_code : Z) (detail : string).

Inductive outcome (A : Type) : Type :=
| Ret (a : A)
| Raise (e : exn).
Arguments Ret {A} a.
Arguments Raise {A} e.

(** ** The process and its environment *)

Record Response : Type := mkResponse {
  status_code : Z;
  text : string;
  json : outcome pyval        (* what [response.json()] does *)
}.

Inductive payload : Type :=
| QueryParams (params : option dict)   (* [params=params] *)
| JsonBody (params : option dict).     (* [json=params] *)

Record UpstreamCall : Type := mkCall {
  verb : string;
  url : string;
  headers : list (string * string);
  sent : payload
}.

Inductive console_line : Type :=
| LogSending (method target : string)
| LogWithParams (params : option dict)
| LogStatus (code : Z)
| LogBadRequest (body : string)
| LogUnauthorized (body : string)
| LogTooManyRequests (body : string)
| LogUnexpected (body : string)
| LogRequestError (description : string).

Record World : Type := mkWorld {
  request_count : Z;                              (* global, line 28 *)
  last_reset : Z;                                 (* global, line 29 *)
  API_KEY : string;                               (* read once at start-up *)
  clock : nat -> Z;                               (* k-th reading of time.time() *)
  ticks : nat;                                    (* readings consumed so far *)
  network : nat -> UpstreamCall -> outcome Response;
  upstream_calls : list UpstreamCall;             (* calls issued so far *)
  console : list console_line
}.

Definition REQUEST_LIMIT : Z := 950000.
Definition BASE_URL : string := "https://openapiv1.coinstats.app".

Definition with_request_count (n : Z) (w : World) : World :=
  mkWorld n (last_reset w) (API_KEY w) (clock w) (ticks w)
          (network w) (upstream_calls w) (console w).

Definition with_last_reset (t : Z) (w : World) : World :=
  mkWorld (request_count w) t (API_KEY w) (clock w) (ticks w)
          (network w) (upstream_calls w) (console w).

Definition with_ticks (k : nat) (w : World) : World :=
  mkWorld (request_count w) (last_reset w) (API_KEY w) (clock w) k
          (network w) (upstream_calls w) (console w).

Definition with_upstream_calls (l : list UpstreamCall) (w : World) : World :=
  mkWorld (request_count w) (last_reset w) (API_KEY w) (clock w) (ticks w)
          (network w) l (console w).

Definition with_console (l : list console_line) (w : World) : World :=
  mkWorld (request_count w) (last_reset w) (API_KEY w) (clock w) (ticks w)
          (network w) (upstream_calls w) l.

(** ** A state and exception monad *)

Module Py.

Definition M (A : Type) : Type := World -> outcome A * World.

Definition ret {A} (a : A) : M A := fun w => (Ret a, w).

Definition raise {A} (e : exn) : M A := fun w => (Raise e, w).

Definition bind {A B} (m : M A) (k : A -> M B) : M B :=
  fun w =>
    match m w with
    | (Ret a, w') => k a w'
    | (Raise e, w') => (Raise e, w')
    end.

(** [try: body / except requests.RequestException as e: handler(str(e))].
    Every other exception passes through the handler untouched. *)
Definition try_except_RequestException {A}
           (body : M A) (handler : string -> M A) : M A :=
  fun w =>
    match body w with
    | (Raise (RequestException description), w') => handler description w'
    | r => r
    end.

Definition gets {A} (f : World -> A) : M A := fun w => (Ret (f w), w).

Definition modify (f : World -> World) : M unit := fun w => (Ret tt, f w).

(** [time.time()] *)
Definition time_time : M Z :=
  fun w => (Ret (clock w (ticks w)), with_ticks (S (ticks w)) w).

(** [print(...)] *)
Definition print (l : console_line) : M unit :=
  modify (fun w => with_console (console w ++ [l]) w).

(** One call of the [requests] library. *)
Definition requests_call (c : UpstreamCall) : M Response :=
  fun w =>
    (network w (length (upstream_calls w)) c,
     with_upstream_calls (upstream_calls w ++ [c]) w).

End Py.
Import Py.

Notation "x <- m ;; k" := (bind m (fun x => k))
  (at level 100, m at next level, right associativity).
Notation "m ;;; k" := (bind m (fun _ => k))
  (at level 100, right associativity).

(** Unfolds the operations of the monad. *)
Ltac unfold_py :=
  unfold print, bind, ret, raise, gets, modify, time_time, requests_call,
    try_except_RequestException.

(** ** The middleware (lines 32-53) *)

Record Request : Type := mkRequest {
  url_path : string           (* [request.url.path] *)
}.

Definition RESET_WINDOW_SECONDS : Z := 2592000.

Definition exempt_prefixes : list string :=
  ["/docs"; "/openapi.json"; "/redoc"; "/favicon.ico"; "/"].

(** The dict returned at line 47. *)
Definition limit_reached : pyval :=
  JDict [("status_code", JInt 429);
         ("content",
          JDict [("detail",
                  JStr "Monthly request limit reached. Please try again next month.")])].

(** Lines 36-39: the approximate monthly reset. *)
Definition reset_check : M unit :=
  now <- time_time ;;
  lr <- gets last_reset ;;
  if now - lr >? RESET_WINDOW_SECONDS then
    modify (with_request_count 0) ;;;
    t <- time_time ;;
    modify (with_last_reset t)
  else ret tt.

(** Lines 36-50: everything the middleware does before [call_next]. The
    result is [Some r] when line 47 returns [r] early, [None] when control
    falls through to line 52. *)
Definition quota_gate (request : Request) : M (option pyval) :=
  reset_check ;;;
  if negb (startswith (url_path request) exempt_prefixes) then
    c <- gets request_count ;;
    modify (with_request_count (c + 1)) ;;;
    c' <- gets request_count ;;
    if c' >? REQUEST_LIMIT then ret (Some limit_reached) else ret None
  else ret None.

Definition track_requests (request : Request)
           (call_next : Request -> M pyval) : M pyval :=
  early <- quota_gate request ;;
  match early with
  | Some r => ret r
  | None =>
      response <- call_next request ;;
      ret response
  end.

(** ** The status handler (lines 58-68) *)

Definition home : M pyval :=
  c <- gets request_count ;;
  ret (JDict [("message", JStr "✅ CoinStats API is running!");
              ("version", JStr "1.0.0");
              ("documentation", JStr "/docs");
              ("requests_this_month", JInt c);
              ("monthly_limit", JStr "1,000,000 credits");
              ("rate_limit", JStr "5 requests per second");
              ("status", JStr "Free API plan with 1,000,000 credits per month")]).

(** ** The forwarding helper (lines 71-111) *)

Definition request_headers (key : string) : list (string * string) :=
  [("accept", "application/json"); ("X-API-KEY", key)].

(** Lines 84-91: the dispatch on the upper-cased method. *)
Definition send (method target : string) (params : option dict) : M Response :=
  key <- gets API_KEY ;;
  if (upper method =? "GET")%string then
    requests_call (mkCall "GET" target (request_headers key) (QueryParams params))
  else if (upper method =? "POST")%string then
    requests_call (mkCall "POST" target (request_headers key) (JsonBody params))
  else if (upper method =? "PATCH")%string then
    requests_call (mkCall "PATCH" target (request_headers key) (JsonBody params))
  else raise (ValueError ("Unsupported HTTP method: " ++ method)%string).

(** Lines 93-108: the translation of the upstream reply. *)
Definition translate (response : Response) : M pyval :=
  print (LogStatus (status_code response)) ;;;
  if status_code response =? 200 then
    fun w => (json response, w)
  else if status_code response =? 400 then
    print (LogBadRequest (text response)) ;;;
    raise (HTTPException 400 ("❌ Bad Request: " ++ text response)%string)
  else if status_code response =? 401 then
    print (LogUnauthorized (text response)) ;;;
    raise (HTTPException 401 "❌ Invalid API key or unauthorized access")
  else if status_code response =? 429 then
    print (LogTooManyRequests (text response)) ;;;
    raise (HTTPException 429
             "❌ Rate limit exceeded (5 requests per second). Please try again later.")
  else
    print (LogUnexpected (text response)) ;;;
    raise (HTTPException (status_code response)
             ("⚠ Unexpected Error: " ++ substring 0 200 (text response))%string).

Definition fetch_from_coinstats (endpoint : string) (params : option dict)
           (method : string) : M pyval :=
  let target := (BASE_URL ++ "/" ++ endpoint)%string in
  print (LogSending method target) ;;;
  (if truthy params then print (LogWithParams params) else ret tt) ;;;
  try_except_RequestException
    (response <- send method target params ;;
     translate response)
    (fun description =>
       print (LogRequestError description) ;;;
       raise (HTTPException 500 ("❌ Connection Error: " ++ description)%string)).

(** ** Route handlers and the serving loop *)

(** Three of the route handlers (lines 114-129, 246-251, 383-396). Every
    route handler other than [home] has this shape: it assembles a parameter
    dict and returns the result of one call of [fetch_from_coinstats]. *)
Definition get_coins (skip limit currency : pyval) : M pyval :=
  let params := [("skip", skip); ("limit", limit); ("currency", currency)] in
  fetch_from_coinstats "coins" (Some params) "GET".

Definition get_fiats : M pyval :=
  fetch_from_coinstats "fiats" None "GET".

Definition update_wallet_transactions (address blockchain : string) : M pyval :=
  let params := [("address", JStr address); ("blockchain", JStr blockchain)] in
  fetch_from_coinstats "wallet/transactions" (Some params) "PATCH".

(** The server handles one request after the other; an exception raised for
    one request ends that request only. *)
Fixpoint serve (calls : list (Request * (Request -> M pyval))) (w : World)
  : list (outcome pyval) * World :=
  match calls with
  | [] => ([], w)
  | (request, call_next) :: rest =>
      let (r, w') := track_requests request call_next w in
      let (rs, w'') := serve rest w' in
      (r :: rs, w'')
  end.

(** The three kinds of step that touch or read the quota state. *)
Inductive operation : Type :=
| AdmissionCheck (request : Request)
| Forwarding (endpoint : string) (params : option dict) (method : string)
| StatusRead.

Definition exec (op : operation) (w : World) : World :=
  match op with
  | AdmissionCheck request => snd (quota_gate request w)
  | Forwarding endpoint params method =>
      snd (fetch_from_coinstats endpoint params method w)
  | StatusRead => snd (home w)
  end.

(** The test of line 37, as the next step would evaluate it. *)
Definition reset_due (w : World) : bool :=
  clock w (ticks w) - last_reset w >? RESET_WINDOW_SECONDS.

Definition reset_fires (op : operation) (w : World) : bool :=
  match op with
  | AdmissionCheck _ => reset_due w
  | _ => false
  end.

Fixpoint exec_all (ops : list operation) (w : World) : World :=
  match ops with
  | [] => w
  | op :: rest => exec_all rest (exec op w)
  end.

Fixpoint no_reset_during (ops : list operation) (w : World) : Prop :=
  match ops with
  | [] => True
  | op :: rest => reset_fires op w = false /\ no_reset_during rest (exec op w)
  end.

(** ** Sample environments *)

Definition reply (code : Z) (body : string) : outcome Response :=
  Ret (mkResponse code body (Ret (JDict []))).

(** A process that has counted [count] requests, last reset at time 0, with
    a clock that always reads [now] and an upstream that always answers
    [answer]. *)
Definition world_at (count now : Z) (answer : outcome Response) : World :=
  mkWorld count 0 "secret" (fun _ => now) 0 (fun _ _ => answer) [] [].

Definition fresh : World := world_at 0 0 (reply 200 "{}").

Fixpoint repeat_char (c : ascii) (n : nat) : string :=
  match n with
  | O => EmptyString
  | S n' => String c (repeat_char c n')
  end.

Definition long_body : string := repeat_char "a"%char 201.

Definition coins_request : Request * (Request -> M pyval) :=
  (mkRequest "/coins", fun _ => get_coins (JInt 0) (JInt 20) (JStr "USD")).

(** ** Reading results *)

(** The entry [k] of a returned dict; [None] when the computation raised. *)
Definition answer_field (k : string) (o : outcome pyval) : option pyval :=
  match o with
  | Ret v => field k v
  | Raise _ => None
  end.

(** The methods that lines 84-89 dispatch on. *)
Definition supported_methods : list string := ["GET"; "POST"; "PATCH"].

(** The upstream answers the next call with [r], whatever the call is. *)
Definition next_reply (w : World) (r : outcome Response) : Prop :=
  forall c, network w (length (upstream_calls w)) c = r.

(** ** Frame conditions *)

(** A computation that leaves both quota globals as it found them. *)
Definition preserves_quota {A} (m : M A) : Prop :=
  forall w,
    request_count (snd (m w)) = request_count w /\
    last_reset (snd (m w)) = last_reset w.

(** ** The remaining route handlers (lines 131-380) *)

(** Python truthiness of a value, as [if coin_id:] tests it. *)
Definition truthy_val (v : pyval) : bool :=
  match v with
  | JNull => false
  | JBool b => b
  | JInt n => negb (n =? 0)
  | JStr s => negb (s =? "")%string
  | JList items => match items with [] => false | _ => true end
  | JDict entries => match entries with [] => false | _ => true end
  end.

(** [d[k] = v]: an existing key keeps its place, a new one goes last. *)
Fixpoint dict_set (k : string) (v : pyval) (d : dict) : dict :=
  match d with
  | [] => [(k, v)]
  | (k', v') :: rest =>
      if (k =? k')%string then (k, v) :: rest else (k', v') :: dict_set k v rest
  end.

(** [if v: params[k] = v] *)
Definition set_if_truthy (k : string) (v : pyval) (d : dict) : dict :=
  if truthy_val v then dict_set k v d else d.

Definition get_coin (coin_id : string) (currency : pyval) : M pyval :=
  let params := [("currency", currency)] in
  fetch_from_coinstats ("coins/" ++ coin_id)%string (Some params) "GET".

Definition get_coin_charts (coin_id : string) (period currency : pyval) : M pyval :=
  let params := [("period", period); ("currency", currency)] in
  fetch_from_coinstats ("coins/" ++ coin_id ++ "/charts")%string (Some params) "GET".

Definition average_price_params (coin_id currency : pyval) : dict :=
  let params := [] in
  let params := set_if_truthy "coinId" coin_id params in
  let params := set_if_truthy "currency" currency params in
  params.

Definition get_average_price (coin_id currency : pyval) : M pyval :=
  fetch_from_coinstats "coins/price/avg"
    (Some (average_price_params coin_id currency)) "GET".

Definition exchange_price_params (coin_id exchange_id currency : pyval) : dict :=
  let params := [] in
  let params := set_if_truthy "coinId" coin_id params in
  let params := set_if_truthy "exchangeId" exchange_id params in
  let params := set_if_truthy "currency" currency params in
  params.

Definition get_exchange_price (coin_id exchange_id currency : pyval) : M pyval :=
  fetch_from_coinstats "coins/price/exchange"
    (Some (exchange_price_params coin_id exchange_id currency)) "GET".

Definition exchange_tickers_params (exchange skip limit : pyval) : dict :=
  let params := [("skip", skip); ("limit", limit)] in
  let params := set_if_truthy "exchange" exchange params in
  params.

Definition get_exchange_tickers (exchange skip limit : pyval) : M pyval :=
  fetch_from_coinstats "tickers/exchanges"
    (Some (exchange_tickers_params exchange skip limit)) "GET".

Definition market_tickers_params (trading_pair exchange skip limit : pyval) : dict :=
  let params := [("skip", skip); ("limit", limit)] in
  let params := set_if_truthy "pair" trading_pair params in
  let params := set_if_truthy "exchange" exchange params in
  params.

Definition get_market_tickers (trading_pair exchange skip limit : pyval) : M pyval :=
  fetch_from_coinstats "tickers/markets"
    (Some (market_tickers_params trading_pair exchange skip limit)) "GET".

Definition get_markets : M pyval :=
  fetch_from_coinstats "markets" None "GET".

Definition get_currencies : M pyval :=
  fetch_from_coinstats "currencies" None "GET".

Definition get_news_sources : M pyval :=
  fetch_from_coinstats "news/sources" None "GET".

Definition news_params (skip limit filter : pyval) : dict :=
  let params := [("skip", skip); ("limit", limit)] in
  let params := set_if_truthy "filter" filter params in
  params.

Definition get_news (skip limit filter : pyval) : M pyval :=
  fetch_from_coinstats "news" (Some (news_params skip limit filter)) "GET".

Definition get_news_by_type (type : string) (skip limit : pyval) : M pyval :=
  let params := [("skip", skip); ("limit", limit)] in
  fetch_from_coinstats ("news/type/" ++ type)%string (Some params) "GET".

Definition get_news_article (news_id : string) : M pyval :=
  fetch_from_coinstats ("news/" ++ news_id)%string None "GET".

Definition get_wallet_blockchains : M pyval :=
  fetch_from_coinstats "wallet/blockchains" None "GET".

Definition get_wallet_balance (address blockchain : string) : M pyval :=
  let params := [("address", JStr address); ("blockchain", JStr blockchain)] in
  fetch_from_coinstats "wallet/balance" (Some params) "GET".

Definition get_wallet_balances (address networks : string) : M pyval :=
  let params := [("address", JStr address); ("networks", JStr networks)] in
  fetch_from_coinstats "wallet/balances" (Some params) "GET".

Definition get_wallet_transactions (address blockchain : string)
           (skip limit : pyval) : M pyval :=
  let params := [("address", JStr address); ("blockchain", JStr blockchain);
                 ("skip", skip); ("limit", limit)] in
  fetch_from_coinstats "wallet/transactions" (Some params) "GET".

(** One constructor per registered route, with the arguments its handler
    receives. *)
Inductive route : Type :=
| RHome
| RGetCoins (skip limit currency : pyval)
| RGetCoin (coin_id : string) (currency : pyval)
| RGetCoinCharts (coin_id : string) (period currency : pyval)
| RGetAveragePrice (coin_id currency : pyval)
| RGetExchangePrice (coin_id exchange_id currency : pyval)
| RGetExchangeTickers (exchange skip limit : pyval)
| RGetMarketTickers (trading_pair exchange skip limit : pyval)
| RGetFiats
| RGetMarkets
| RGetCurrencies
| RGetNewsSources
| RGetNews (skip limit filter : pyval)
| RGetNewsByType (type : string) (skip limit : pyval)
| RGetNewsArticle (news_id : string)
| RGetWalletBlockchains
| RGetWalletBalance (address blockchain : string)
| RGetWalletBalances (address networks : string)
| RGetWalletTransactions (address blockchain : string) (skip limit : pyval)
| RUpdateWalletTransactions (address blockchain : string).

(** The handler a route is registered with. *)
Definition handle (rt : route) : M pyval :=
  match rt with
  | RHome => home
  | RGetCoins skip limit currency => get_coins skip limit currency
  | RGetCoin coin_id currency => get_coin coin_id currency
  | RGetCoinCharts coin_id period currency => get_coin_charts coin_id period currency
  | RGetAveragePrice coin_id currency => get_average_price coin_id currency
  | RGetExchangePrice coin_id exchange_id currency =>
      get_exchange_price coin_id exchange_id currency
  | RGetExchangeTickers exchange skip limit => get_exchange_tickers exchange skip limit
  | RGetMarketTickers trading_pair exchange skip limit =>
      get_market_tickers trading_pair exchange skip limit
  | RGetFiats => get_fiats
  | RGetMarkets => get_markets
  | RGetCurrencies => get_currencies
  | RGetNewsSources => get_news_sources
  | RGetNews skip limit filter => get_news skip limit filter
  | RGetNewsByType type skip limit => get_news_by_type type skip limit
  | RGetNewsArticle news_id => get_news_article news_id
  | RGetWalletBlockchains => get_wallet_blockchains
  | RGetWalletBalance address blockchain => get_wallet_balance address blockchain
  | RGetWalletBalances address networks => get_wallet_balances address networks
  | RGetWalletTransactions address blockchain skip limit =>
      get_wallet_transactions address blockchain skip limit
  | RUpdateWalletTransactions address blockchain =>
      update_wallet_transactions address blockchain
  end.

(** The path of the decorator, with the path parameters filled in. *)
Definition route_path (rt : route) : string :=
  match rt with
  | RHome => "/"
  | RGetCoins _ _ _ => "/coins"
  | RGetCoin coin_id _ => "/coins/" ++ coin_id
  | RGetCoinCharts coin_id _ _ => "/coins/" ++ coin_id ++ "/charts"
  | RGetAveragePrice _ _ => "/coins/price/avg"
  | RGetExchangePrice _ _ _ => "/coins/price/exchange"
  | RGetExchangeTickers _ _ _ => "/tickers/exchanges"
  | RGetMarketTickers _ _ _ _ => "/tickers/markets"
  | RGetFiats => "/fiats"
  | RGetMarkets => "/markets"
  | RGetCurrencies => "/currencies"
  | RGetNewsSources => "/news/sources"
  | RGetNews _ _ _ => "/news"
  | RGetNewsByType type _ _ => "/news/type/" ++ type
  | RGetNewsArticle news_id => "/news/" ++ news_id
  | RGetWalletBlockchains => "/wallet/blockchains"
  | RGetWalletBalance _ _ => "/wallet/balance"
  | RGetWalletBalances _ _ => "/wallet/balances"
  | RGetWalletTransactions _ _ _ _ => "/wallet/transactions"
  | RUpdateWalletTransactions _ _ => "/wallet/transactions"
  end%string.

(** The HTTP method of the decorator ([@app.get] or [@app.patch]). *)
Definition route_method (rt : route) : string :=
  match rt with
  | RUpdateWalletTransactions _ _ => "PATCH"
  | _ => "GET"
  end.

(** ** Runs of the gate *)

(** The decisions of the gate on a sequence of requests, in order. *)
Fixpoint gate_decisions (requests : list Request) (w : World)
  : list (outcome (option pyval)) :=
  match requests with
  | [] => []
  | request :: rest =>
      fst (quota_gate request w)
      :: gate_decisions rest (snd (quota_gate request w))
  end.

(** A computation that issues no upstream call. *)
Definition keeps_calls {A} (m : M A) : Prop :=
  forall w, upstream_calls (snd (m w)) = upstream_calls w.


(** * Properties *)

(** ** Basic facts about the building blocks *)

(** The tuple of line 42 ends with the one-character prefix of every
    absolute path, so every such path is matched. *)
Lemma startswith_slash (rest : string) :
  startswith (String "/"%char rest) exempt_prefixes = true.
Proof.
  unfold startswith, exempt_prefixes. cbn.
  replace (prefix "" rest) with true by now destruct rest.
  now rewrite !orb_true_r.
Qed.

Lemma reset_check_due (w : World) :
  reset_due w = true ->
  reset_check w =
    (Ret tt,
     mkWorld 0 (clock w (S (ticks w))) (API_KEY w) (clock w) (S (S (ticks w)))
             (network w) (upstream_calls w) (console w)).
Proof.
  unfold reset_due, reset_check. unfold_py. cbn.
  intros ->. reflexivity.
Qed.

Lemma reset_check_not_due (w : World) :
  reset_due w = false ->
  reset_check w = (Ret tt, with_ticks (S (ticks w)) w).
Proof.
  unfold reset_due, reset_check. unfold_py. cbn.
  intros ->. reflexivity.
Qed.

(** The gate, one branch at a time. *)
Lemma quota_gate_unfold (request : Request) (w : World) :
  quota_gate request w =
    let w1 := snd (reset_check w) in
    if startswith (url_path request) exempt_prefixes then (Ret None, w1)
    else
      (if request_count w1 + 1 >? REQUEST_LIMIT
       then Ret (Some limit_reached) else Ret None,
       with_request_count (request_count w1 + 1) w1).
Proof.
  unfold quota_gate.
  destruct (reset_due w) eqn:D.
  - unfold bind at 1. rewrite (reset_check_due w D). cbn [snd].
    destruct (startswith _ _); cbn [negb]; [reflexivity|].
    unfold_py. cbn. reflexivity.
  - unfold bind at 1. rewrite (reset_check_not_due w D). cbn [snd].
    destruct (startswith _ _); cbn [negb]; [reflexivity|].
    unfold_py. cbn.
    now destruct (request_count w + 1 >? REQUEST_LIMIT).
Qed.

Lemma reset_check_frame (w : World) :
  upstream_calls (snd (reset_check w)) = upstream_calls w /\
  console (snd (reset_check w)) = console w /\
  API_KEY (snd (reset_check w)) = API_KEY w.
Proof.
  destruct (reset_due w) eqn:D.
  - rewrite (reset_check_due w D). now cbn.
  - rewrite (reset_check_not_due w D). now cbn.
Qed.

Lemma quota_gate_frame (request : Request) (w : World) :
  upstream_calls (snd (quota_gate request w)) = upstream_calls w /\
  console (snd (quota_gate request w)) = console w.
Proof.
  rewrite quota_gate_unfold. cbv zeta.
  destruct (reset_check_frame w) as (U & C & _).
  destruct (startswith _ _); cbn; auto.
Qed.

(** A request whose path begins with a slash passes the gate uncounted. *)
Lemma slash_path_not_counted (rest : string) (w : World) :
  reset_due w = false ->
  quota_gate (mkRequest (String "/"%char rest)) w
  = (Ret None, with_ticks (S (ticks w)) w).
Proof.
  intros D. rewrite quota_gate_unfold. cbv zeta.
  cbn [url_path]. rewrite startswith_slash.
  now rewrite (reset_check_not_due w D).
Qed.

(** A request that the tuple of line 42 does not match is counted, whether
    it is then let through or not. *)
Lemma unmatched_path_counted (request : Request) (w : World) :
  startswith (url_path request) exempt_prefixes = false ->
  reset_due w = false ->
  request_count (snd (quota_gate request w)) = request_count w + 1.
Proof.
  intros E D. rewrite quota_gate_unfold. cbv zeta. rewrite E.
  now rewrite (reset_check_not_due w D).
Qed.

(** The early return of the gate is always the dict of line 47. *)
Lemma quota_gate_early (request : Request) (w : World) (r : pyval) :
  fst (quota_gate request w) = Ret (Some r) -> r = limit_reached.
Proof.
  rewrite quota_gate_unfold. cbv zeta.
  destruct (startswith _ _); cbn [fst]; [discriminate|].
  destruct (_ >? _); congruence.
Qed.

Lemma home_run (w : World) :
  home w =
    (Ret (JDict [("message", JStr "✅ CoinStats API is running!");
                 ("version", JStr "1.0.0");
                 ("documentation", JStr "/docs");
                 ("requests_this_month", JInt (request_count w));
                 ("monthly_limit", JStr "1,000,000 credits");
                 ("rate_limit", JStr "5 requests per second");
                 ("status",
                  JStr "Free API plan with 1,000,000 credits per month")]),
     w).
Proof. reflexivity. Qed.

(** ** The quota counter *)

(** C1. Three forwarding calls of [GET /coins] on a fresh process: each is
    let through and reaches the upstream, yet the counter still reads 0
    where the claim expects 3, because the path is matched by the last
    prefix of the tuple of line 42. *)
Theorem C1_forwarded_calls_left_uncounted :
  let (results, w) := serve [coins_request; coins_request; coins_request] fresh in
  results = [Ret (JDict []); Ret (JDict []); Ret (JDict [])] /\
  map verb (upstream_calls w) = ["GET"; "GET"; "GET"] /\
  map url (upstream_calls w) =
    ["https://openapiv1.coinstats.app/coins";
     "https://openapiv1.coinstats.app/coins";
     "https://openapiv1.coinstats.app/coins"] /\
  request_count w = 0.
Proof. vm_compute. repeat split. Qed.

(** Under the test of line 42 as written, the counter is exact on the
    requests it does not match: [n] gate passes without reset add [n]. *)
Lemma gate_counts_unmatched (requests : list Request) (w : World) :
  Forall (fun request =>
            startswith (url_path request) exempt_prefixes = false) requests ->
  no_reset_during (map AdmissionCheck requests) w ->
  request_count (exec_all (map AdmissionCheck requests) w)
  = request_count w + Z.of_nat (length requests).
Proof.
  intros F. revert w.
  induction F as [|request rest E _ IH]; intros w N.
  - cbn. lia.
  - cbn [map exec_all no_reset_during] in *. destruct N as (D & N).
    rewrite (IH _ N). cbn [exec reset_fires] in *.
    rewrite (unmatched_path_counted request w E D).
    cbn [length]. lia.
Qed.

(** C2, as stated, fails: at [count = REQUEST_LIMIT] with no reset due the
    gate returns the denial and the counter has moved. *)
Lemma C2_denied_call_changes_count :
  let w := world_at REQUEST_LIMIT 0 (reply 200 "{}") in
  let request := mkRequest "" in
  REQUEST_LIMIT <= request_count w /\
  reset_due w = false /\
  fst (quota_gate request w) = Ret (Some limit_reached) /\
  request_count (snd (quota_gate request w)) <> request_count w.
Proof. vm_compute. repeat split; congruence. Qed.

(** C2, amended. For every request that line 42 does not match, in a state
    with [request_count >= REQUEST_LIMIT] and no reset due, the gate returns
    the denial of line 47, and the counter has been incremented by one. *)
Theorem C2_denied_call_is_counted (request : Request) (w : World) :
  startswith (url_path request) exempt_prefixes = false ->
  REQUEST_LIMIT <= request_count w ->
  reset_due w = false ->
  fst (quota_gate request w) = Ret (Some limit_reached) /\
  request_count (snd (quota_gate request w)) = request_count w + 1.
Proof.
  intros E L D. split; [|now apply unmatched_path_counted].
  rewrite quota_gate_unfold. cbv zeta. rewrite E.
  rewrite (reset_check_not_due w D). cbn.
  destruct (Z.gtb_spec (request_count w + 1) REQUEST_LIMIT); [reflexivity|lia].
Qed.

Lemma C2_denied_call_is_counted_witness :
  fst (quota_gate (mkRequest "") (world_at REQUEST_LIMIT 0 (reply 200 "{}")))
  = Ret (Some limit_reached) /\
  request_count
    (snd (quota_gate (mkRequest "") (world_at REQUEST_LIMIT 0 (reply 200 "{}"))))
  = request_count (world_at REQUEST_LIMIT 0 (reply 200 "{}")) + 1.
Proof.
  apply (C2_denied_call_is_counted
           (mkRequest "") (world_at REQUEST_LIMIT 0 (reply 200 "{}"))).
  - reflexivity.
  - vm_compute. discriminate.
  - reflexivity.
Defined.

(** What the function [track_requests] does on a denied request: whenever
    the gate returns early, the value returned is the dict literal of line
    47 (a plain dict with an entry [status_code], not a response object),
    [call_next] is not run, and the log of upstream calls is what it was
    before the request; this holds for every [call_next]. *)
Lemma denied_call_never_reaches_upstream
        (request : Request) (call_next : Request -> M pyval)
        (w : World) (r : pyval) :
  fst (quota_gate request w) = Ret (Some r) ->
  startswith (url_path request) exempt_prefixes = false /\
  track_requests request call_next w
  = (Ret limit_reached, snd (quota_gate request w)) /\
  field "status_code" limit_reached = Some (JInt 429) /\
  field "content" limit_reached
  = Some (JDict [("detail",
                  JStr "Monthly request limit reached. Please try again next month.")]) /\
  upstream_calls (snd (track_requests request call_next w)) = upstream_calls w.
Proof.
  intros H.
  assert (r = limit_reached) as -> by exact (quota_gate_early request w r H).
  assert (track_requests request call_next w
          = (Ret limit_reached, snd (quota_gate request w))) as T.
  { unfold track_requests, bind.
    destruct (quota_gate request w) as [o w']. cbn [fst snd] in *.
    now subst o. }
  repeat split; try assumption.
  - revert H. rewrite quota_gate_unfold. cbv zeta.
    destruct (startswith _ _); [discriminate|reflexivity].
  - rewrite T. cbn [snd]. apply quota_gate_frame.
Qed.

Lemma denied_call_never_reaches_upstream_witness :
  track_requests (mkRequest "") (snd coins_request)
                 (world_at REQUEST_LIMIT 0 (reply 200 "{}"))
  = (Ret limit_reached,
     snd (quota_gate (mkRequest "") (world_at REQUEST_LIMIT 0 (reply 200 "{}")))) /\
  upstream_calls
    (snd (track_requests (mkRequest "") (snd coins_request)
                         (world_at REQUEST_LIMIT 0 (reply 200 "{}"))))
  = [].
Proof.
  pose proof (denied_call_never_reaches_upstream
                (mkRequest "") (snd coins_request)
                (world_at REQUEST_LIMIT 0 (reply 200 "{}"))
                limit_reached eq_refl) as (_ & T & _ & _ & U).
  split; [exact T | exact U].
Defined.

(** C3. A process at the limit receives a request that line 42 does not
    match. The middleware makes no upstream call, and what it returns is
    the dict literal of line 47 itself: a plain dict holding the number 429
    under the key [status_code] and the message under [content], of the
    same kind as the dict the status handler returns, and not a response
    with status 429. The middleware is registered with
    [@app.middleware("http")], whose return value the framework sends as
    the response; the 429 with its fixed message that line 47 is written to
    give is therefore not what the code hands over. *)
Theorem C3_denied_request_is_answered_with_a_dict :
  let w := world_at REQUEST_LIMIT 0 (reply 200 "{}") in
  let answer := track_requests (mkRequest "") (snd coins_request) w in
  fst answer
  = Ret (JDict [("status_code", JInt 429);
                ("content",
                 JDict [("detail",
                         JStr "Monthly request limit reached. Please try again next month.")])]) /\
  upstream_calls (snd answer) = [] /\
  request_count (snd answer) = REQUEST_LIMIT + 1.
Proof. vm_compute. repeat split. Qed.




(** ** Who writes the quota globals *)

Create HintDb quota_frame.

Lemma pq_ret {A} (a : A) : preserves_quota (ret a).
Proof. intros w. now cbn. Qed.

Lemma pq_raise {A} (e : exn) : preserves_quota (@raise A e).
Proof. intros w. now cbn. Qed.

Lemma pq_gets {A} (f : World -> A) : preserves_quota (gets f).
Proof. intros w. now cbn. Qed.

Lemma pq_print (l : console_line) : preserves_quota (print l).
Proof. intros w. now cbn. Qed.

Lemma pq_requests_call (c : UpstreamCall) : preserves_quota (requests_call c).
Proof. intros w. now cbn. Qed.

Lemma pq_bind {A B} (m : M A) (k : A -> M B) :
  preserves_quota m -> (forall a, preserves_quota (k a)) ->
  preserves_quota (bind m k).
Proof.
  intros Hm Hk w. unfold bind.
  specialize (Hm w). destruct (m w) as [[a|e] w1]; cbn [snd] in *.
  - destruct Hm as (C0 & L0), (Hk a w1) as (C & L). split; congruence.
  - exact Hm.
Qed.

Lemma pq_try {A} (body : M A) (handler : string -> M A) :
  preserves_quota body -> (forall d, preserves_quota (handler d)) ->
  preserves_quota (try_except_RequestException body handler).
Proof.
  intros Hb Hh w. unfold try_except_RequestException.
  specialize (Hb w). destruct (body w) as [[a|[d|m|c d]] w1]; cbn [snd] in *;
    try exact Hb.
  destruct Hb as (C0 & L0), (Hh d w1) as (C & L). split; congruence.
Qed.

Lemma pq_if {A} (b : bool) (m1 m2 : M A) :
  preserves_quota m1 -> preserves_quota m2 ->
  preserves_quota (if b then m1 else m2).
Proof. now destruct b. Qed.

#[local] Hint Resolve pq_ret pq_raise pq_gets pq_print pq_requests_call
  pq_bind pq_try pq_if : quota_frame.

Lemma pq_send (method target : string) (params : option dict) :
  preserves_quota (send method target params).
Proof. unfold send. auto 10 with quota_frame. Qed.

Lemma pq_translate (response : Response) : preserves_quota (translate response).
Proof.
  unfold translate. apply pq_bind; [auto with quota_frame|]. intros _.
  repeat (apply pq_if; [|]); auto with quota_frame.
  intros w. now cbn.
Qed.

Lemma pq_fetch_from_coinstats
      (endpoint : string) (params : option dict) (method : string) :
  preserves_quota (fetch_from_coinstats endpoint params method).
Proof.
  unfold fetch_from_coinstats. cbv zeta.
  pose proof pq_send. pose proof pq_translate.
  auto 10 with quota_frame.
Qed.

Lemma pq_home : preserves_quota home.
Proof. intros w. now rewrite home_run. Qed.

(** One step of the system: either no reset fires and the counter does not
    go down, or the reset of lines 38-39 fires and the counter restarts. *)
Lemma exec_count_step (op : operation) (w : World) :
  if reset_fires op w
  then 0 <= request_count (exec op w) <= 1 /\
       last_reset (exec op w) = clock w (S (ticks w))
  else request_count w <= request_count (exec op w) /\
       last_reset (exec op w) = last_reset w.
Proof.
  destruct op as [request|endpoint params method|]; cbn [reset_fires exec].
  - rewrite quota_gate_unfold. cbv zeta.
    destruct (reset_due w) eqn:D.
    + rewrite (reset_check_due w D).
      destruct (startswith _ _); cbn; split; (lia || reflexivity).
    + rewrite (reset_check_not_due w D).
      destruct (startswith _ _); cbn; split; (lia || reflexivity).
  - destruct (pq_fetch_from_coinstats endpoint params method w) as (C & L).
    split; [lia | exact L].
  - destruct (pq_home w) as (C & L). split; [lia | exact L].
Qed.

(** C9. The counter goes down only by a reset. For every operation
    (admission check, forwarding, status read) and every state: if the reset
    of line 37 does not fire in that step the counter after it is at least
    the counter before it, and if it fires the counter restarts at 0 (and
    reads 1 if the resetting request is itself counted). Consequently, over
    any run of operations in which no reset fires, the counter is
    non-decreasing. *)
Theorem C9_count_decreases_only_by_reset :
  (forall op w,
      if reset_fires op w
      then 0 <= request_count (exec op w) <= 1
      else request_count w <= request_count (exec op w)) /\
  (forall op w,
      request_count (exec op w) < request_count w -> reset_fires op w = true) /\
  (forall ops w,
      no_reset_during ops w ->
      request_count w <= request_count (exec_all ops w)).
Proof.
  split; [|split].
  - intros op w. pose proof (exec_count_step op w) as H.
    destruct (reset_fires op w); tauto.
  - intros op w Lt. pose proof (exec_count_step op w) as H.
    destruct (reset_fires op w); [reflexivity|lia].
  - induction ops as [|op rest IH]; intros w N; cbn [exec_all no_reset_during] in *.
    + lia.
    + destruct N as (D & N). specialize (IH _ N).
      pose proof (exec_count_step op w) as H. rewrite D in H. lia.
Qed.

Lemma C9_count_decreases_only_by_reset_witness :
  request_count fresh
  <= request_count
       (exec_all [AdmissionCheck (mkRequest ""); Forwarding "coins" None "GET";
                  StatusRead; AdmissionCheck (mkRequest "/coins")] fresh).
Proof.
  apply (proj2 (proj2 C9_count_decreases_only_by_reset)).
  cbn. repeat split.
Defined.

(** ** The forwarding helper *)

Lemma length_append (s1 s2 : string) :
  String.length (s1 ++ s2) = (String.length s1 + String.length s2)%nat.
Proof. induction s1 as [|c s1 IH]; cbn; [reflexivity|now rewrite IH]. Qed.

Lemma length_substring_le (n : nat) (s : string) :
  (String.length (substring 0 n s) <= n)%nat.
Proof.
  revert s. induction n as [|n IH]; intros [|c s]; cbn; try lia.
  specialize (IH s). lia.
Qed.

(** A proper cut of a string is not the string, whatever stands before. *)
Lemma append_cut_differs (marker body : string) (n : nat) :
  (n < String.length body)%nat ->
  (marker ++ body)%string <> (marker ++ substring 0 n body)%string.
Proof.
  intros Hn E. apply (f_equal String.length) in E.
  rewrite !length_append in E.
  pose proof (length_substring_le n body). lia.
Qed.

Lemma supported_cases (method : string) :
  In (upper method) supported_methods ->
  upper method = "GET" \/ upper method = "POST" \/ upper method = "PATCH".
Proof. cbn. intuition auto. Qed.

Lemma unsupported_cases (method : string) :
  ~ In (upper method) supported_methods ->
  (upper method =? "GET")%string = false /\
  (upper method =? "POST")%string = false /\
  (upper method =? "PATCH")%string = false.
Proof.
  cbn. intros H. repeat split; apply String.eqb_neq; intros E; apply H;
    rewrite E; auto.
Qed.

(** What [send] does with a supported method: exactly one call, logged, and
    the reply of the network. *)
Lemma send_supported (method target : string) (params : option dict)
      (w : World) (r : outcome Response) :
  In (upper method) supported_methods ->
  next_reply w r ->
  exists c,
    send method target params w = (r, with_upstream_calls (upstream_calls w ++ [c]) w) /\
    verb c = upper method /\ url c = target /\
    headers c = request_headers (API_KEY w).
Proof.
  intros S N. unfold send. unfold_py. cbn.
  destruct (supported_cases method S) as [E|[E|E]]; rewrite E; cbn;
    rewrite N; eexists; repeat split.
Qed.

(** The whole helper on a supported method, up to the [try] of line 83. *)
Lemma fetch_supported (endpoint : string) (params : option dict)
      (method : string) (w : World) (r : outcome Response) :
  In (upper method) supported_methods ->
  next_reply w r ->
  exists w1,
    upstream_calls w1 <> upstream_calls w /\
    length (upstream_calls w1) = S (length (upstream_calls w)) /\
    fetch_from_coinstats endpoint params method w =
      try_except_RequestException
        (fun w' => match r with
                   | Ret response => translate response w'
                   | Raise e => (Raise e, w')
                   end)
        (fun description =>
           print (LogRequestError description) ;;;
           raise (HTTPException 500 ("❌ Connection Error: " ++ description)%string))
        w1.
Proof.
  intros S N. unfold fetch_from_coinstats. cbv zeta.
  set (target := (BASE_URL ++ "/" ++ endpoint)%string).
  set (w0 := snd ((print (LogSending method target) ;;;
                   (if truthy params then print (LogWithParams params) else ret tt)) w)).
  assert (next_reply w0 r) as N0.
  { intros c. subst w0. unfold_py. destruct (truthy params); cbn; apply N. }
  assert (upstream_calls w0 = upstream_calls w) as U0.
  { subst w0. unfold_py. destruct (truthy params); reflexivity. }
  destruct (send_supported method target params w0 r S N0) as (c & Hs & _).
  exists (with_upstream_calls (upstream_calls w0 ++ [c]) w0). repeat split.
  - cbn. rewrite U0. intros E.
    apply (f_equal (@length _)) in E. rewrite length_app in E. cbn in E. lia.
  - cbn. rewrite U0, length_app. cbn. lia.
  - subst w0. unfold bind at 1 2.
    unfold try_except_RequestException at 1 2. unfold bind at 2.
    revert Hs. unfold_py. destruct (truthy params); cbn; intros ->;
      destruct r; reflexivity.
Qed.

(** The handler of line 109 lets everything but a [RequestException] pass. *)
Lemma try_except_passes {A} (body : M A) (handler : string -> M A) (w : World) :
  (forall d, fst (body w) <> Raise (RequestException d)) ->
  try_except_RequestException body handler w = body w.
Proof.
  intros H. unfold try_except_RequestException.
  destruct (body w) as [[a|[d|m|c d]] w1]; try reflexivity.
  now destruct (H d).
Qed.

Lemma translate_400 (response : Response) (w : World) :
  status_code response = 400 ->
  fst (translate response w)
  = Raise (HTTPException 400 ("❌ Bad Request: " ++ text response)%string).
Proof. intros E. unfold translate. unfold_py. now rewrite E. Qed.

Lemma translate_401 (response : Response) (w : World) :
  status_code response = 401 ->
  fst (translate response w)
  = Raise (HTTPException 401 "❌ Invalid API key or unauthorized access").
Proof. intros E. unfold translate. unfold_py. now rewrite E. Qed.

(** The catch-all branch of line 106 is the one that truncates. *)
Lemma translate_other (response : Response) (w : World) :
  ~ In (status_code response) [200; 400; 401; 429] ->
  fst (translate response w)
  = Raise (HTTPException (status_code response)
             ("⚠ Unexpected Error: " ++ substring 0 200 (text response))%string).
Proof.
  intros H. unfold translate. unfold_py. cbn in H.
  destruct (Z.eqb_spec (status_code response) 200); [lia|].
  destruct (Z.eqb_spec (status_code response) 400); [lia|].
  destruct (Z.eqb_spec (status_code response) 401); [lia|].
  destruct (Z.eqb_spec (status_code response) 429); [lia|].
  reflexivity.
Qed.

(** C5, as stated, fails: for a body of 201 characters and status 400 the
    detail carries all 201 characters; it is not the marker followed by the
    first 200 characters, nor by any shorter cut of the body. *)
Lemma C5_bad_request_body_not_truncated :
  let response := mkResponse 400 long_body (Ret JNull) in
  String.length long_body = 201%nat /\
  fst (translate response fresh)
  = Raise (HTTPException 400 ("❌ Bad Request: " ++ long_body)%string) /\
  fst (translate response fresh)
  <> Raise (HTTPException 400
              ("❌ Bad Request: " ++ substring 0 200 long_body)%string) /\
  (forall n, (n < String.length long_body)%nat ->
             fst (translate response fresh)
             <> Raise (HTTPException 400
                         ("❌ Bad Request: " ++ substring 0 n long_body)%string)).
Proof.
  cbv zeta.
  assert (forall n, (n < String.length long_body)%nat ->
            fst (translate (mkResponse 400 long_body (Ret JNull)) fresh)
            <> Raise (HTTPException 400
                        ("❌ Bad Request: " ++ substring 0 n long_body)%string)) as H.
  { intros n Hn. rewrite translate_400 by reflexivity. cbn [text].
    pose proof (append_cut_differs "❌ Bad Request: " long_body n Hn).
    congruence. }
  repeat split.
  - exact (H 200%nat ltac:(vm_compute; lia)).
  - exact H.
Qed.

(** C5, amended. For every upstream reply with status 400 the translation
    raises an [HTTPException] with status 400 whose detail is the fixed
    marker followed by the whole upstream body, untruncated; so does the
    forwarding helper for every supported method. *)
Theorem C5_bad_request_carries_whole_body
        (endpoint : string) (params : option dict) (method : string)
        (w : World) (response : Response) :
  In (upper method) supported_methods ->
  next_reply w (Ret response) ->
  status_code response = 400 ->
  (forall w', fst (translate response w')
              = Raise (HTTPException 400
                         ("❌ Bad Request: " ++ text response)%string)) /\
  fst (fetch_from_coinstats endpoint params method w)
  = Raise (HTTPException 400 ("❌ Bad Request: " ++ text response)%string).
Proof.
  intros S N E. split; [intros w'; now apply translate_400|].
  destruct (fetch_supported endpoint params method w _ S N) as (w1 & _ & _ & ->).
  rewrite try_except_passes; rewrite translate_400 by exact E;
    [reflexivity | discriminate].
Qed.

Lemma C5_bad_request_carries_whole_body_witness :
  fst (fetch_from_coinstats "coins" None "GET"
         (world_at 0 0 (reply 400 long_body)))
  = Raise (HTTPException 400 ("❌ Bad Request: " ++ long_body)%string).
Proof.
  apply (C5_bad_request_carries_whole_body
           "coins" None "GET" (world_at 0 0 (reply 400 long_body))
           (mkResponse 400 long_body (Ret (JDict [])))).
  - cbn. auto.
  - intros c. reflexivity.
  - reflexivity.
Defined.

(** C6. For every upstream reply with status 401, whatever its body, the
    translation raises an [HTTPException] with status 401 and one fixed
    detail; the result is the same for every body, so the body does not
    reach the message. *)
Theorem C6_unauthorized_has_fixed_message
        (endpoint : string) (params : option dict) (method : string)
        (w : World) (response : Response) :
  In (upper method) supported_methods ->
  next_reply w (Ret response) ->
  status_code response = 401 ->
  (forall body j w',
      fst (translate (mkResponse 401 body j) w')
      = Raise (HTTPException 401 "❌ Invalid API key or unauthorized access")) /\
  fst (fetch_from_coinstats endpoint params method w)
  = Raise (HTTPException 401 "❌ Invalid API key or unauthorized access").
Proof.
  intros S N E. split; [intros body j w'; now apply translate_401|].
  destruct (fetch_supported endpoint params method w _ S N) as (w1 & _ & _ & ->).
  rewrite try_except_passes; rewrite translate_401 by exact E;
    [reflexivity | discriminate].
Qed.

Lemma C6_unauthorized_has_fixed_message_witness :
  fst (fetch_from_coinstats "coins" None "GET"
         (world_at 0 0 (reply 401 "bad key")))
  = Raise (HTTPException 401 "❌ Invalid API key or unauthorized access").
Proof.
  apply (C6_unauthorized_has_fixed_message
           "coins" None "GET" (world_at 0 0 (reply 401 "bad key"))
           (mkResponse 401 "bad key" (Ret (JDict [])))).
  - cbn. auto.
  - intros c. reflexivity.
  - reflexivity.
Defined.

(** C7. When the network call itself raises a [RequestException] (refused
    connection, failed name resolution, timeout), the forwarding helper
    raises an [HTTPException] with status 500 whose detail is the fixed
    marker followed by the description of the fault. *)
Theorem C7_transport_fault_becomes_500
        (endpoint : string) (params : option dict) (method : string)
        (w : World) (description : string) :
  In (upper method) supported_methods ->
  next_reply w (Raise (RequestException description)) ->
  fst (fetch_from_coinstats endpoint params method w)
  = Raise (HTTPException 500 ("❌ Connection Error: " ++ description)%string).
Proof.
  intros S N.
  destruct (fetch_supported endpoint params method w _ S N) as (w1 & _ & _ & ->).
  reflexivity.
Qed.

Lemma C7_transport_fault_becomes_500_witness :
  fst (fetch_from_coinstats "coins" None "GET"
         (world_at 0 0 (Raise (RequestException "Connection refused"))))
  = Raise (HTTPException 500 "❌ Connection Error: Connection refused").
Proof.
  apply (C7_transport_fault_becomes_500
           "coins" None "GET"
           (world_at 0 0 (Raise (RequestException "Connection refused")))
           "Connection refused").
  - cbn. auto.
  - intros c. reflexivity.
Defined.

(** C10. For every method whose upper-cased spelling is none of GET, POST
    and PATCH, the forwarding helper raises a [ValueError] naming the method
    as it was given; the handler of line 109 does not catch it, so the
    result is never the 500 connection error, and no upstream call is made.
    The comparison is made after upper-casing, so spellings such as [get],
    [Post] and [pAtCh] are supported: for a supported method the dispatch of
    lines 84-89 issues exactly one call, with the upper-cased verb. *)
Theorem C10_unsupported_method_raises_ValueError :
  (forall endpoint params method w,
      ~ In (upper method) supported_methods ->
      fst (fetch_from_coinstats endpoint params method w)
      = Raise (ValueError ("Unsupported HTTP method: " ++ method)%string) /\
      (forall d, fst (fetch_from_coinstats endpoint params method w)
                 <> Raise (HTTPException 500 ("❌ Connection Error: " ++ d)%string)) /\
      upstream_calls (snd (fetch_from_coinstats endpoint params method w))
      = upstream_calls w) /\
  (In (upper "get") supported_methods /\
   In (upper "Post") supported_methods /\
   In (upper "pAtCh") supported_methods) /\
  (forall method target params w r,
      In (upper method) supported_methods ->
      next_reply w r ->
      exists c,
        send method target params w
        = (r, with_upstream_calls (upstream_calls w ++ [c]) w) /\
        verb c = upper method).
Proof.
  split; [|split].
  - intros endpoint params method w U.
    destruct (unsupported_cases method U) as (G & P & Q).
    assert (fetch_from_coinstats endpoint params method w
            = (Raise (ValueError ("Unsupported HTTP method: " ++ method)%string),
               snd ((print (LogSending method (BASE_URL ++ "/" ++ endpoint)%string) ;;;
                     (if truthy params then print (LogWithParams params)
                      else ret tt)) w))) as E.
    { unfold fetch_from_coinstats, send. cbv zeta. unfold_py.
      rewrite G, P, Q. now destruct (truthy params). }
    rewrite E. cbn [fst snd]. split; [reflexivity|]. split; [discriminate|].
    unfold_py. now destruct (truthy params).
  - vm_compute. auto 8.
  - intros method target params w r S N.
    destruct (send_supported method target params w r S N) as (c & E & V & _).
    now exists c.
Qed.

Lemma C10_unsupported_method_raises_ValueError_witness :
  fst (fetch_from_coinstats "coins" None "DELETE" fresh)
  = Raise (ValueError "Unsupported HTTP method: DELETE") /\
  upstream_calls (snd (fetch_from_coinstats "coins" None "DELETE" fresh)) = [].
Proof.
  destruct (proj1 C10_unsupported_method_raises_ValueError
                  "coins" None "DELETE" fresh) as (V & _ & U).
  - cbn. intros [H|[H|[H|[]]]]; discriminate H.
  - split; [exact V | exact U].
Defined.

(** ** The status handler *)

(** The status request as a whole goes through the middleware first: the
    root path is exempt, so it is never counted, and with no reset due only
    the clock has been read. *)
Lemma status_request_not_counted (w : World) :
  reset_due w = false ->
  track_requests (mkRequest "/") (fun _ => home) w
  = (fst (home w), with_ticks (S (ticks w)) w).
Proof.
  intros D. unfold track_requests, bind at 1.
  rewrite (slash_path_not_counted "" w D).
  unfold bind, ret. now rewrite !home_run.
Qed.

(** * Further properties of the code *)

(** ** The gate on whole runs *)

Lemma quota_gate_counted (request : Request) (w : World) :
  startswith (url_path request) exempt_prefixes = false ->
  reset_due w = false ->
  quota_gate request w =
    (if request_count w + 1 >? REQUEST_LIMIT
     then Ret (Some limit_reached) else Ret None,
     with_request_count (request_count w + 1) (with_ticks (S (ticks w)) w)).
Proof.
  intros E D. rewrite quota_gate_unfold. cbv zeta. rewrite E.
  now rewrite (reset_check_not_due w D).
Qed.

Lemma track_requests_let_through (request : Request)
      (call_next : Request -> M pyval) (w : World) :
  fst (quota_gate request w) = Ret None ->
  track_requests request call_next w
  = call_next request (snd (quota_gate request w)).
Proof.
  intros H. unfold track_requests, bind.
  destruct (quota_gate request w) as [o w1]. cbn [fst snd] in *. subst o.
  now destruct (call_next request w1) as [[a|e] w2].
Qed.


Lemma slash_path_gate (rest : string) (w : World) :
  fst (quota_gate (mkRequest (String "/"%char rest)) w) = Ret None /\
  request_count (snd (quota_gate (mkRequest (String "/"%char rest)) w))
  = (if reset_due w then 0 else request_count w).
Proof.
  rewrite quota_gate_unfold. cbv zeta. cbn [url_path].
  rewrite startswith_slash. cbn [fst snd]. split; [reflexivity|].
  destruct (reset_due w) eqn:D.
  - now rewrite (reset_check_due w D).
  - now rewrite (reset_check_not_due w D).
Qed.

(** X1. A request whose path begins with a slash is never denied and never
    counted, whatever the counter reads (the limit included): the gate lets
    it through, the counter is what it was (or 0 when the monthly reset
    fires on this request), and the middleware returns exactly what
    [call_next] returns or raises. *)
Theorem slash_path_bypasses_quota
        (rest : string) (call_next : Request -> M pyval) (w : World) :
  let request := mkRequest (String "/"%char rest) in
  fst (quota_gate request w) = Ret None /\
  request_count (snd (quota_gate request w))
  = (if reset_due w then 0 else request_count w) /\
  track_requests request call_next w
  = call_next request (snd (quota_gate request w)).
Proof.
  cbv zeta. destruct (slash_path_gate rest w) as (G & C).
  split; [exact G|]. split; [exact C|].
  now apply track_requests_let_through.
Qed.

(** X2. For a request that line 42 does not match, with no reset due, the
    gate lets it through exactly when the counter is below [REQUEST_LIMIT];
    the middleware then runs [call_next] in the state where the counter has
    already been incremented, so a forwarding call that fails afterwards
    has still been counted. *)
Theorem counted_request_passes_below_limit
        (request : Request) (call_next : Request -> M pyval) (w : World) :
  startswith (url_path request) exempt_prefixes = false ->
  reset_due w = false ->
  (fst (quota_gate request w) = Ret None <-> request_count w < REQUEST_LIMIT) /\
  (request_count w < REQUEST_LIMIT ->
   track_requests request call_next w
   = call_next request
       (with_request_count (request_count w + 1) (with_ticks (S (ticks w)) w))).
Proof.
  intros E D. pose proof (quota_gate_counted request w E D) as Q.
  assert (fst (quota_gate request w) = Ret None <-> request_count w < REQUEST_LIMIT)
    as I.
  { rewrite Q. cbn [fst].
    destruct (Z.gtb_spec (request_count w + 1) REQUEST_LIMIT); split;
      intros; (discriminate || lia || reflexivity). }
  split; [exact I|]. intros L.
  rewrite track_requests_let_through by now apply I.
  now rewrite Q.
Qed.

Lemma counted_request_passes_below_limit_witness :
  track_requests (mkRequest "") (snd coins_request)
                 (world_at 949999 0 (reply 400 "bad"))
  = snd coins_request (mkRequest "")
      (with_request_count 950000
         (with_ticks 1 (world_at 949999 0 (reply 400 "bad")))).
Proof.
  apply (proj2 (counted_request_passes_below_limit
                  (mkRequest "") (snd coins_request)
                  (world_at 949999 0 (reply 400 "bad")) eq_refl eq_refl)).
  vm_compute. reflexivity.
Defined.

(** X3. Within one epoch the decisions on a run of counted requests depend
    on the position alone: starting from a counter [c], request number [i]
    of the run (from 0) is let through when [c + i + 1 <= REQUEST_LIMIT] and
    denied otherwise. From a fresh counter the first 950,000 counted
    requests pass and every later one is denied until a reset. *)
Theorem decisions_within_epoch (requests : list Request) (w : World) :
  Forall (fun request =>
            startswith (url_path request) exempt_prefixes = false) requests ->
  no_reset_during (map AdmissionCheck requests) w ->
  gate_decisions requests w
  = map (fun i => if request_count w + Z.of_nat i + 1 >? REQUEST_LIMIT
                  then Ret (Some limit_reached) else Ret None)
        (seq 0 (length requests)).
Proof.
  intros F. revert w.
  induction F as [|request rest E _ IH]; intros w N; [reflexivity|].
  cbn [map no_reset_during exec reset_fires] in N. destruct N as (D & N).
  cbn [gate_decisions length seq map]. rewrite (IH _ N).
  rewrite (quota_gate_counted request w E D). cbn [fst snd].
  rewrite Z.add_0_r. f_equal.
  rewrite <- seq_shift, map_map. apply map_ext. intros i.
  cbn [request_count with_request_count].
  now replace (request_count w + 1 + Z.of_nat i + 1)
    with (request_count w + Z.of_nat (S i) + 1) by lia.
Qed.

Lemma decisions_within_epoch_witness :
  gate_decisions [mkRequest ""; mkRequest ""; mkRequest ""]
                 (world_at 949998 0 (reply 200 "{}"))
  = [Ret None; Ret None; Ret (Some limit_reached)].
Proof.
  rewrite (decisions_within_epoch
             [mkRequest ""; mkRequest ""; mkRequest ""]
             (world_at 949998 0 (reply 200 "{}"))).
  - reflexivity.
  - repeat constructor.
  - cbn. repeat split.
Defined.




(** X5. The counter never becomes negative: every operation (admission
    check, forwarding, status read) keeps [0 <= request_count], over runs of
    any length, resets included. *)
Theorem count_stays_nonnegative (ops : list operation) (w : World) :
  0 <= request_count w -> 0 <= request_count (exec_all ops w).
Proof.
  revert w. induction ops as [|op rest IH]; intros w H; [exact H|].
  cbn [exec_all]. apply IH.
  pose proof (exec_count_step op w) as S.
  destruct (reset_fires op w); lia.
Qed.

Lemma count_stays_nonnegative_witness :
  0 <= request_count
         (exec_all [AdmissionCheck (mkRequest ""); StatusRead;
                    Forwarding "coins" None "GET"]
                   (world_at 7 (RESET_WINDOW_SECONDS + 1) (reply 200 "{}"))).
Proof.
  apply (count_stays_nonnegative
           [AdmissionCheck (mkRequest ""); StatusRead;
            Forwarding "coins" None "GET"]
           (world_at 7 (RESET_WINDOW_SECONDS + 1) (reply 200 "{}"))).
  vm_compute. discriminate.
Defined.

(** X6. The reset check runs for exempt paths too: a status request that
    arrives once the window has been exceeded resets the quota before the
    handler reads it, so the answer shows [requests_this_month = 0], the
    counter is 0 and [last_reset] is the reading taken at the reset. *)
Theorem status_request_after_window_resets (w : World) :
  reset_due w = true ->
  answer_field "requests_this_month"
    (fst (track_requests (mkRequest "/") (fun _ => home) w))
  = Some (JInt 0) /\
  request_count (snd (track_requests (mkRequest "/") (fun _ => home) w)) = 0 /\
  last_reset (snd (track_requests (mkRequest "/") (fun _ => home) w))
  = clock w (S (ticks w)).
Proof.
  intros D. destruct (slash_path_gate "" w) as (G & C).
  rewrite (track_requests_let_through _ (fun _ => home) w G).
  rewrite home_run. cbn [fst snd answer_field field dict_get].
  rewrite D in C. rewrite C.
  repeat split.
  rewrite quota_gate_unfold. cbv zeta. cbn [url_path].
  rewrite startswith_slash, (reset_check_due w D). reflexivity.
Qed.

Lemma status_request_after_window_resets_witness :
  answer_field "requests_this_month"
    (fst (track_requests (mkRequest "/") (fun _ => home)
            (world_at 42 (RESET_WINDOW_SECONDS + 1) (reply 200 "{}"))))
  = Some (JInt 0).
Proof.
  apply (status_request_after_window_resets
           (world_at 42 (RESET_WINDOW_SECONDS + 1) (reply 200 "{}"))).
  reflexivity.
Defined.

(** ** The forwarding helper, the remaining branches *)

Lemma substring_prefix (n : nat) (s : string) :
  prefix (substring 0 n s) s = true.
Proof.
  revert s. induction n as [|n IH]; intros [|c s]; cbn; try reflexivity.
  destruct (ascii_dec c c) as [_|N]; [apply IH | now destruct N].
Qed.

Lemma substring_whole (n : nat) (s : string) :
  (String.length s <= n)%nat -> substring 0 n s = s.
Proof.
  revert s. induction n as [|n IH]; intros [|c s] H; cbn in *;
    try reflexivity; try lia.
  f_equal. apply IH. lia.
Qed.

Lemma translate_429 (response : Response) (w : World) :
  status_code response = 429 ->
  fst (translate response w)
  = Raise (HTTPException 429
             "❌ Rate limit exceeded (5 requests per second). Please try again later.").
Proof. intros E. unfold translate. unfold_py. now rewrite E. Qed.

Lemma translate_200 (response : Response) (w : World) :
  status_code response = 200 ->
  fst (translate response w) = json response.
Proof. intros E. unfold translate. unfold_py. now rewrite E. Qed.

(** X7. A reply with status 200 is answered with whatever [response.json()]
    gives: the parsed body is returned unchanged; if parsing raises a
    [RequestException] the caller gets the 500 connection error of line
    111, and any other exception of the parser is passed on as it is. *)
Theorem success_returns_parsed_body
        (endpoint : string) (params : option dict) (method : string)
        (w : World) (response : Response) :
  In (upper method) supported_methods ->
  next_reply w (Ret response) ->
  status_code response = 200 ->
  fst (fetch_from_coinstats endpoint params method w)
  = match json response with
    | Ret v => Ret v
    | Raise (RequestException d) =>
        Raise (HTTPException 500 ("❌ Connection Error: " ++ d)%string)
    | Raise e => Raise e
    end.
Proof.
  intros S N E.
  destruct (fetch_supported endpoint params method w _ S N) as (w1 & _ & _ & ->).
  pose proof (translate_200 response w1 E) as T.
  unfold try_except_RequestException.
  destruct (translate response w1) as [o w2]. cbn [fst] in T. subst o.
  now destruct (json response) as [v|[d|m|c d]].
Qed.

Lemma success_returns_parsed_body_witness :
  fst (fetch_from_coinstats "coins" None "get"
         (world_at 0 0 (Ret (mkResponse 200 "[1]" (Ret (JList [JInt 1]))))))
  = Ret (JList [JInt 1]).
Proof.
  apply (success_returns_parsed_body
           "coins" None "get"
           (world_at 0 0 (Ret (mkResponse 200 "[1]" (Ret (JList [JInt 1])))))
           (mkResponse 200 "[1]" (Ret (JList [JInt 1])))).
  - vm_compute. auto.
  - intros c. reflexivity.
  - reflexivity.
Defined.

(** X8. A reply with status 429 becomes an [HTTPException] with status 429
    and one fixed message about the upstream rate limit, the same for every
    body. *)
Theorem rate_limited_has_fixed_message
        (endpoint : string) (params : option dict) (method : string)
        (w : World) (response : Response) :
  In (upper method) supported_methods ->
  next_reply w (Ret response) ->
  status_code response = 429 ->
  fst (fetch_from_coinstats endpoint params method w)
  = Raise (HTTPException 429
             "❌ Rate limit exceeded (5 requests per second). Please try again later.").
Proof.
  intros S N E.
  destruct (fetch_supported endpoint params method w _ S N) as (w1 & _ & _ & ->).
  rewrite try_except_passes; rewrite translate_429 by exact E;
    [reflexivity | discriminate].
Qed.

Lemma rate_limited_has_fixed_message_witness :
  fst (fetch_from_coinstats "coins" None "GET"
         (world_at 0 0 (reply 429 "slow down")))
  = Raise (HTTPException 429
             "❌ Rate limit exceeded (5 requests per second). Please try again later.").
Proof.
  apply (rate_limited_has_fixed_message
           "coins" None "GET" (world_at 0 0 (reply 429 "slow down"))
           (mkResponse 429 "slow down" (Ret (JDict [])))).
  - cbn. auto.
  - intros c. reflexivity.
  - reflexivity.
Defined.

(** X9. A reply with any status other than 200, 400, 401 and 429 becomes an
    [HTTPException] with that same status whose detail is a fixed marker
    followed by a cut of the body: the cut is a prefix of the body, has at
    most 200 characters, and is the whole body when the body has at most
    200 characters. *)
Theorem other_status_keeps_code_and_cuts_body
        (endpoint : string) (params : option dict) (method : string)
        (w : World) (response : Response) :
  In (upper method) supported_methods ->
  next_reply w (Ret response) ->
  ~ In (status_code response) [200; 400; 401; 429] ->
  exists shown,
    fst (fetch_from_coinstats endpoint params method w)
    = Raise (HTTPException (status_code response)
               ("⚠ Unexpected Error: " ++ shown)%string) /\
    prefix shown (text response) = true /\
    (String.length shown <= 200)%nat /\
    ((String.length (text response) <= 200)%nat -> shown = text response).
Proof.
  intros S N O. exists (substring 0 200 (text response)).
  split; [|split; [apply substring_prefix|split;
                   [apply length_substring_le|apply substring_whole]]].
  destruct (fetch_supported endpoint params method w _ S N) as (w1 & _ & _ & ->).
  rewrite try_except_passes; rewrite translate_other by exact O;
    [reflexivity | discriminate].
Qed.

Lemma other_status_keeps_code_and_cuts_body_witness :
  exists shown,
    fst (fetch_from_coinstats "coins" None "GET"
           (world_at 0 0 (reply 503 long_body)))
    = Raise (HTTPException 503 ("⚠ Unexpected Error: " ++ shown)%string) /\
    prefix shown long_body = true /\
    (String.length shown <= 200)%nat /\
    ((String.length long_body <= 200)%nat -> shown = long_body).
Proof.
  apply (other_status_keeps_code_and_cuts_body
           "coins" None "GET" (world_at 0 0 (reply 503 long_body))
           (mkResponse 503 long_body (Ret (JDict [])))).
  - cbn. auto.
  - intros c. reflexivity.
  - cbn. intros [H|[H|[H|[H|[]]]]]; discriminate H.
Defined.

(** ** What the helper sends, and what it never lets out *)

Lemma kc_translate (response : Response) : keeps_calls (translate response).
Proof.
  intros w. unfold translate. unfold_py. cbn.
  destruct (status_code response =? 200); [reflexivity|].
  destruct (status_code response =? 400); [reflexivity|].
  destruct (status_code response =? 401); [reflexivity|].
  destruct (status_code response =? 429); reflexivity.
Qed.

Lemma kc_after_reply (r : outcome Response) (w : World) :
  upstream_calls
    (snd (try_except_RequestException
            (fun w' => match r with
                       | Ret response => translate response w'
                       | Raise e => (Raise e, w')
                       end)
            (fun description =>
               print (LogRequestError description) ;;;
               raise (HTTPException 500 ("❌ Connection Error: " ++ description)%string))
            w))
  = upstream_calls w.
Proof.
  unfold try_except_RequestException.
  destruct r as [response|e].
  - pose proof (kc_translate response w) as K.
    destruct (translate response w) as [[v|[d|m|c d]] w1]; cbn [snd] in *;
      exact K.
  - destruct e as [d|m|c d]; try reflexivity.
Qed.

Lemma send_call (method target : string) (params : option dict)
      (w : World) (r : outcome Response) :
  In (upper method) supported_methods ->
  next_reply w r ->
  send method target params w
  = (r, with_upstream_calls
          (upstream_calls w
           ++ [mkCall (upper method) target (request_headers (API_KEY w))
                      (if (upper method =? "GET")%string
                       then QueryParams params else JsonBody params)]) w).
Proof.
  intros S N. unfold send. unfold_py. cbn.
  destruct (supported_cases method S) as [E|[E|E]]; rewrite E; cbn;
    now rewrite N.
Qed.

Lemma fetch_call_log
      (endpoint : string) (params : option dict) (method : string)
      (w : World) (r : outcome Response) :
  In (upper method) supported_methods ->
  next_reply w r ->
  upstream_calls (snd (fetch_from_coinstats endpoint params method w))
  = upstream_calls w
    ++ [mkCall (upper method) (BASE_URL ++ "/" ++ endpoint)%string
               [("accept", "application/json"); ("X-API-KEY", API_KEY w)]
               (if (upper method =? "GET")%string
                then QueryParams params else JsonBody params)].
Proof.
  intros S N. unfold fetch_from_coinstats. cbv zeta.
  set (target := (BASE_URL ++ "/" ++ endpoint)%string).
  set (w0 := snd ((print (LogSending method target) ;;;
                   (if truthy params then print (LogWithParams params) else ret tt)) w)).
  assert (next_reply w0 r) as N0.
  { intros c. subst w0. unfold_py. destruct (truthy params); cbn; apply N. }
  assert (upstream_calls w0 = upstream_calls w /\ API_KEY w0 = API_KEY w) as (U0 & K0).
  { subst w0. unfold_py. destruct (truthy params); split; reflexivity. }
  pose proof (send_call method target params w0 r S N0) as Hs.
  rewrite U0, K0 in Hs.
  match type of Hs with _ = (_, ?w1') => set (w1 := w1') in * end.
  transitivity (upstream_calls w1); [|reflexivity].
  rewrite <- (kc_after_reply r w1). f_equal. f_equal.
  subst w0. unfold bind at 1 2.
  unfold try_except_RequestException at 1 2. unfold bind at 2.
  revert Hs. unfold_py. destruct (truthy params); cbn; intros ->;
    destruct r; reflexivity.
Qed.

(** X10. With a supported method the helper issues exactly one upstream
    call, whatever the upstream answers or raises (there is no retry): the
    verb is the upper-cased method, the URL is [BASE_URL], a slash and the
    endpoint, the headers are [accept: application/json] and [X-API-KEY]
    with the process key, and the parameters travel as query parameters for
    GET and as a JSON body for POST and PATCH. *)
Theorem one_upstream_call_per_fetch
        (endpoint : string) (params : option dict) (method : string)
        (w : World) (r : outcome Response) :
  In (upper method) supported_methods ->
  next_reply w r ->
  upstream_calls (snd (fetch_from_coinstats endpoint params method w))
  = upstream_calls w
    ++ [mkCall (upper method) (BASE_URL ++ "/" ++ endpoint)%string
               [("accept", "application/json"); ("X-API-KEY", API_KEY w)]
               (if (upper method =? "GET")%string
                then QueryParams params else JsonBody params)].
Proof. exact (fetch_call_log endpoint params method w r). Qed.

Lemma one_upstream_call_per_fetch_witness :
  upstream_calls
    (snd (fetch_from_coinstats "wallet/transactions" None "patch"
            (world_at 0 0 (Raise (RequestException "timed out")))))
  = [mkCall "PATCH" "https://openapiv1.coinstats.app/wallet/transactions"
            [("accept", "application/json"); ("X-API-KEY", "secret")]
            (JsonBody None)].
Proof.
  apply (one_upstream_call_per_fetch
           "wallet/transactions" None "patch"
           (world_at 0 0 (Raise (RequestException "timed out")))
           (Raise (RequestException "timed out"))).
  - vm_compute. auto.
  - intros c. reflexivity.
Defined.

(** X11. The helper never lets a [RequestException] out: whatever the
    method, the parameters and the behaviour of the network, its result is
    a value, an [HTTPException] or another exception, so callers never see
    a raw fault of the [requests] library. *)
Theorem no_RequestException_escapes
        (endpoint : string) (params : option dict) (method : string)
        (w : World) (description : string) :
  fst (fetch_from_coinstats endpoint params method w)
  <> Raise (RequestException description).
Proof.
  unfold fetch_from_coinstats. cbv zeta.
  set (body := (response <- send method (BASE_URL ++ "/" ++ endpoint)%string params ;;
                translate response)).
  unfold print, modify, ret. unfold bind at 1 2.
  assert (forall w0,
             fst (try_except_RequestException body
                    (fun d => bind (fun w1 =>
                                      (Ret tt,
                                       with_console (console w1 ++ [LogRequestError d]) w1))
                                   (fun _ => raise (HTTPException 500
                                      ("❌ Connection Error: " ++ d)%string))) w0)
             <> Raise (RequestException description)) as H.
  { intros w0. unfold try_except_RequestException.
    destruct (body w0) as [[v|[d|m|c d]] w1]; cbn; discriminate. }
  destruct (truthy params); apply H.
Qed.

(** ** The route handlers *)

Lemma pq_handle (rt : route) : preserves_quota (handle rt).
Proof.
  destruct rt; cbn [handle];
    solve [apply pq_home | apply pq_fetch_from_coinstats].
Qed.

Lemma route_path_slash (rt : route) :
  exists rest, route_path rt = String "/"%char rest.
Proof. destruct rt; cbn [route_path]; eexists; reflexivity. Qed.

(** X12. Every route handler other than the status handler issues exactly
    one upstream call, whatever the upstream answers: its URL is [BASE_URL]
    followed by the very path the route is registered under (path
    parameters filled in), its verb is the method of the route, and the
    parameters are sent as query parameters by the GET routes and as a JSON
    body by the PATCH route. The status handler issues none. *)
Theorem route_forwards_to_its_own_path
        (rt : route) (w : World) (r : outcome Response) :
  next_reply w r ->
  upstream_calls (snd (handle RHome w)) = upstream_calls w /\
  (rt <> RHome ->
   exists params,
     upstream_calls (snd (handle rt w))
     = upstream_calls w
       ++ [mkCall (route_method rt) (BASE_URL ++ route_path rt)%string
                  [("accept", "application/json"); ("X-API-KEY", API_KEY w)]
                  (if (route_method rt =? "GET")%string
                   then QueryParams params else JsonBody params)]).
Proof.
  intros N. split; [reflexivity|]. intros H.
  assert (In "GET" supported_methods /\ In "PATCH" supported_methods) as (G & P)
      by (cbn; auto).
  destruct rt; try (now destruct H); cbn [handle];
    unfold get_coins, get_coin, get_coin_charts, get_average_price,
      get_exchange_price, get_exchange_tickers, get_market_tickers, get_fiats,
      get_markets, get_currencies, get_news_sources, get_news, get_news_by_type,
      get_news_article, get_wallet_blockchains, get_wallet_balance,
      get_wallet_balances, get_wallet_transactions, update_wallet_transactions;
    cbv zeta;
    (rewrite (fetch_call_log _ _ "GET" w r G N)
     || rewrite (fetch_call_log _ _ "PATCH" w r P N));
    eexists; reflexivity.
Qed.

Lemma route_forwards_to_its_own_path_witness :
  exists params,
    upstream_calls
      (snd (handle (RGetCoinCharts "bitcoin" (JStr "1m") (JStr "USD")) fresh))
    = [mkCall "GET" "https://openapiv1.coinstats.app/coins/bitcoin/charts"
              [("accept", "application/json"); ("X-API-KEY", "secret")]
              (QueryParams params)].
Proof.
  apply (proj2 (route_forwards_to_its_own_path
                  (RGetCoinCharts "bitcoin" (JStr "1m") (JStr "USD"))
                  fresh (reply 200 "{}") (fun c => eq_refl))).
  discriminate.
Defined.

(** X13. The path every route is registered under (path parameters filled
    in) is matched by the tuple of line 42. Hence a request whose
    [request.url.path] is the registered path of a route passes the gate
    without being denied or counted, whatever the counter reads, and the
    middleware hands back what the handler of the route returns or raises. *)
Theorem registered_paths_are_exempt (rt : route) (w : World) :
  startswith (route_path rt) exempt_prefixes = true /\
  fst (quota_gate (mkRequest (route_path rt)) w) = Ret None /\
  request_count (snd (quota_gate (mkRequest (route_path rt)) w))
  = (if reset_due w then 0 else request_count w) /\
  track_requests (mkRequest (route_path rt)) (fun _ => handle rt) w
  = handle rt (snd (quota_gate (mkRequest (route_path rt)) w)).
Proof.
  destruct (route_path_slash rt) as (rest & ->).
  destruct (slash_path_gate rest w) as (G & C).
  split; [apply startswith_slash|]. split; [exact G|]. split; [exact C|].
  now apply track_requests_let_through.
Qed.





(** ** The status endpoint as a whole *)

(** C8, as stated, fails twice. The entry [monthly_limit] of the answer is
    the constant text of line 65, not the value of [REQUEST_LIMIT], and no
    entry of the answer holds that value. And calling the endpoint does
    change the quota state: the call passes the middleware, so once the
    window has been exceeded a call of [/] sets the counter from 42 to 0
    and moves [last_reset]; and a call that reaches the status handler
    with a URL path the tuple of line 42 does not match is counted. *)
Lemma C8_status_endpoint_differs :
  answer_field "monthly_limit" (fst (home fresh))
  = Some (JStr "1,000,000 credits") /\
  answer_field "monthly_limit" (fst (home fresh)) <> Some (JInt REQUEST_LIMIT) /\
  answer_field "monthly_limit" (fst (home fresh)) <> Some (JStr "950000") /\
  (forall entries,
      fst (home fresh) = Ret (JDict entries) ->
      ~ In (JInt REQUEST_LIMIT) (map snd entries)) /\
  (let w := world_at 42 (RESET_WINDOW_SECONDS + 1) (reply 200 "{}") in
   let w' := snd (track_requests (mkRequest "/") (fun _ => home) w) in
   request_count w = 42 /\ request_count w' = 0 /\
   request_count w' <> request_count w /\
   last_reset w = 0 /\ last_reset w' = RESET_WINDOW_SECONDS + 1 /\
   last_reset w' <> last_reset w) /\
  (let w' := snd (track_requests (mkRequest "") (fun _ => home) fresh) in
   request_count fresh = 0 /\ request_count w' = 1).
Proof.
  split; [reflexivity|]. split; [discriminate|]. split; [discriminate|].
  split.
  - intros entries E. rewrite home_run in E. cbn [fst] in E.
    injection E as <-. cbn. intros H.
    repeat (destruct H as [H|H]; [discriminate H|]). exact H.
  - vm_compute. repeat split; discriminate.
Qed.

(** C8, amended. The status handler returns the current counter under
    [requests_this_month] and the constant text [1,000,000 credits] under
    [monthly_limit], and has itself no side effect. A call of the endpoint
    whose URL path begins with a slash makes no upstream call and never
    increments the counter: with no reset due the counter and [last_reset]
    are what they were; once the window has been exceeded the reset of
    lines 37-39 sets the counter to 0 and [last_reset] to the clock reading
    taken at the reset, before the handler reads the counter. In both cases
    the count in the answer is the counter after the call. *)
Theorem C8_status_endpoint_behaviour (rest : string) (w : World) :
  let request := mkRequest (String "/"%char rest) in
  let answer := track_requests request (fun _ => home) w in
  (answer_field "requests_this_month" (fst (home w))
   = Some (JInt (request_count w)) /\
   answer_field "monthly_limit" (fst (home w))
   = Some (JStr "1,000,000 credits") /\
   snd (home w) = w) /\
  answer_field "requests_this_month" (fst answer)
  = Some (JInt (request_count (snd answer))) /\
  answer_field "monthly_limit" (fst answer) = Some (JStr "1,000,000 credits") /\
  upstream_calls (snd answer) = upstream_calls w /\
  (if reset_due w
   then request_count (snd answer) = 0 /\
        last_reset (snd answer) = clock w (S (ticks w))
   else request_count (snd answer) = request_count w /\
        last_reset (snd answer) = last_reset w).
Proof.
  cbv zeta. split; [rewrite home_run; repeat split|].
  destruct (slash_path_gate rest w) as (G & _).
  rewrite (track_requests_let_through _ (fun _ => home) w G).
  rewrite home_run. cbn [fst snd answer_field field dict_get].
  split; [reflexivity|]. split; [reflexivity|].
  split; [apply quota_gate_frame|].
  rewrite quota_gate_unfold. cbv zeta. cbn [url_path].
  rewrite startswith_slash.
  destruct (reset_due w) eqn:D.
  - rewrite (reset_check_due w D). now cbn.
  - rewrite (reset_check_not_due w D). now cbn.
Qed.
